(** * skimage.measure.simple_metrics: mse, nrmse, psnr

    A shallow embedding of [skimage/measure/simple_metrics.py].

    - An [ndarray] carries its dtype tag, its shape and its elements in
      row-major order.
    - Python exceptions are values of [exn]; a function that can raise
      returns a [result].
    - The numeric primitives the module takes from numpy (elementwise
      arithmetic, reductions, comparisons of scalars) form the interface
      [Numpy]; the three metrics are written once, over any implementation
      of it.  [Ideal] implements the interface with real numbers.
    - [dtype_range], defined in [skimage/util/dtype.py], is a parameter of
      [psnr]. *)

From Stdlib Require Import List String Ascii Bool Arith ZArith Lia.
From Stdlib Require Import Reals Lra.
Import ListNotations.
Local Open Scope string_scope.
Local Open Scope list_scope.
Local Open Scope nat_scope.

(** ** Element types *)

Module Dtype.

Inductive t : Type :=
| bool_
| int8 | uint8 | int16 | uint16 | int32 | uint32 | int64 | uint64
| float16 | float32 | float64
| complex64 | complex128.

Definition eq_dec (a b : t) : {a = b} + {a <> b}.
Proof. decide equality. Defined.

(** [a == b] on dtypes. *)
Definition eqb (a b : t) : bool := if eq_dec a b then true else false.

End Dtype.

(** ** Arrays *)

Record ndarray (num : Type) : Type := mk_ndarray {
  dtype : Dtype.t;
  shape : list nat;
  data : list num
}.

Arguments mk_ndarray {num} _ _ _.
Arguments dtype {num} _.
Arguments shape {num} _.
Arguments data {num} _.

(** [s == s'] on shape tuples. *)
Fixpoint shape_eqb (s s' : list nat) : bool :=
  match s, s' with
  | [], [] => true
  | n :: r, n' :: r' => Nat.eqb n n' && shape_eqb r r'
  | _, _ => false
  end.

(** [X.size]: the number of elements a shape announces. *)
Definition size_of_shape (s : list nat) : nat := fold_right Nat.mul 1 s.

Definition size {num} (X : ndarray num) : nat := size_of_shape (shape X).

(** An array value holds exactly as many elements as its shape announces. *)
Definition well_formed {num} (X : ndarray num) : Prop :=
  List.length (data X) = size X.

(** ** Exceptions and results *)

Inductive exn : Type :=
| ValueError (msg : string)
| KeyError (key : Dtype.t).

Inductive result (A : Type) : Type :=
| Ok (a : A)
| Raise (e : exn).

Arguments Ok {A} _.
Arguments Raise {A} _.

Definition bind {A B} (r : result A) (k : A -> result B) : result B :=
  match r with
  | Ok a => k a
  | Raise e => Raise e
  end.

Declare Scope py_scope.
Delimit Scope py_scope with py.
Notation "x <- r ;; k" := (bind r (fun x => k))
  (at level 61, r at next level, right associativity) : py_scope.
Notation "' p <- r ;; k" := (bind r (fun p => k))
  (at level 61, p pattern, r at next level, right associativity) : py_scope.
Local Open Scope py_scope.

(** The messages of the module's [raise] statements, and numpy's message
    for [max]/[min] of an array without elements. *)
Definition msg_dtype : string := "Input images must have the same dtype.".
Definition msg_dimensions : string :=
  "Input images must have the same dimensions.".
Definition msg_norm_type : string := "Unsupported norm_type".
Definition msg_range : string :=
  String.append
    "im_true has intensity values outside the range expected for "
    "its data type.  Please manually specify the dynamic_range".
Definition msg_zero_size (op : string) : string :=
  String.append "zero-size array to reduction operation "
    (String.append op " which has no identity").

(** The error kinds of the design, as classes of the exceptions raised. *)
Definition IncompatibleInputsError (e : exn) : Prop :=
  e = ValueError msg_dtype \/ e = ValueError msg_dimensions.
Definition UnsupportedNormModeError (e : exn) : Prop :=
  e = ValueError msg_norm_type.
Definition OutOfRangeError (e : exn) : Prop :=
  e = ValueError msg_range.
Definition UnknownDtypeError (e : exn) : Prop :=
  exists d, e = KeyError d.

(** ** Strings *)

(** [c.lower()] on one character: the letters A-Z move to a-z. *)
Definition lower_ascii (c : ascii) : ascii :=
  let n := nat_of_ascii c in
  if (65 <=? n) && (n <=? 90) then ascii_of_nat (n + 32) else c.

(** [s.lower()]. *)
Fixpoint lower (s : string) : string :=
  match s with
  | EmptyString => EmptyString
  | String c r => String (lower_ascii c) (lower r)
  end.

(** [needle in s]. *)
Fixpoint contains (needle s : string) : bool :=
  prefix needle s ||
  match s with
  | EmptyString => false
  | String _ r => contains needle r
  end.

(** ** _assert_compatible *)

Definition _assert_compatible {num} (X Y : ndarray num) : result unit :=
  if negb (Dtype.eqb (dtype X) (dtype Y)) then
    Raise (ValueError msg_dtype)
  else if negb (shape_eqb (shape X) (shape Y)) then
    Raise (ValueError msg_dimensions)
  else Ok tt.

(** ** The numpy primitives *)

Class Numpy (num : Type) : Type := {
  (** a Python number literal *)
  of_Z : Z -> num;
  (** conversion of one element of the given dtype to float64 *)
  to_float64 : Dtype.t -> num -> num;
  subtract : num -> num -> num;
  multiply : num -> num -> num;
  true_divide : num -> num -> num;
  (** [x ** n] *)
  power : num -> Z -> num;
  square : num -> num;
  sqrt : num -> num;
  log10 : num -> num;
  (** the mean of the elements of a float64 array *)
  mean : list num -> num;
  maximum : num -> num -> num;
  minimum : num -> num -> num;
  greater : num -> num -> bool;
  less : num -> num -> bool;
  greater_equal : num -> num -> bool
}.

Section Metrics.

Context {num : Type} {np : Numpy num}.

(** The Dtype Range Table, [skimage.util.dtype.dtype_range]. *)
Variable dtype_range : Dtype.t -> option (num * num).

(** [X.astype(np.float64)] *)
Definition astype_float64 (X : ndarray num) : ndarray num :=
  mk_ndarray Dtype.float64 (shape X) (map (to_float64 (dtype X)) (data X)).

Definition _as_floats (X Y : ndarray num) : ndarray num * ndarray num :=
  let X := if negb (Dtype.eqb (dtype X) Dtype.float64)
           then astype_float64 X else X in
  let Y := if negb (Dtype.eqb (dtype Y) Dtype.float64)
           then astype_float64 Y else Y in
  (X, Y).

(** Elementwise binary operation on the elements of two arrays. *)
Fixpoint zip_with (f : num -> num -> num) (l l' : list num) : list num :=
  match l, l' with
  | x :: r, y :: r' => f x y :: zip_with f r r'
  | _, _ => []
  end.

(** [X - Y] and [X * Y] on arrays of one shape (the callers have passed
    [_assert_compatible], so no broadcasting takes place). *)
Definition arr_subtract (X Y : ndarray num) : ndarray num :=
  mk_ndarray (dtype X) (shape X) (zip_with subtract (data X) (data Y)).

Definition arr_multiply (X Y : ndarray num) : ndarray num :=
  mk_ndarray (dtype X) (shape X) (zip_with multiply (data X) (data Y)).

(** [np.square(X)] *)
Definition arr_square (X : ndarray num) : ndarray num :=
  mk_ndarray (dtype X) (shape X) (map square (data X)).

(** [X.mean()] *)
Definition arr_mean (X : ndarray num) : num := mean (data X).

(** [X.max()] and [X.min()]: a reduction without identity, which raises
    on an array without elements. *)
Definition arr_max (X : ndarray num) : result num :=
  match data X with
  | [] => Raise (ValueError (msg_zero_size "maximum"))
  | x :: r => Ok (fold_left maximum r x)
  end.

Definition arr_min (X : ndarray num) : result num :=
  match data X with
  | [] => Raise (ValueError (msg_zero_size "minimum"))
  | x :: r => Ok (fold_left minimum r x)
  end.

Definition mse (X Y : ndarray num) : result num :=
  _ <- _assert_compatible X Y ;;
  let '(X, Y) := _as_floats X Y in
  Ok (arr_mean (arr_square (arr_subtract X Y))).

Definition nrmse (im_true im_test : ndarray num) (norm_type : string)
  : result num :=
  _ <- _assert_compatible im_true im_test ;;
  let '(im_true, im_test) := _as_floats im_true im_test in
  let norm_type := lower norm_type in
  denom <-
    (if String.eqb norm_type "euclidean" then
       Ok (sqrt (arr_mean (arr_multiply im_true im_true)))
     else if String.eqb norm_type "min-max" then
       mx <- arr_max im_true ;;
       mn <- arr_min im_true ;;
       Ok (subtract mx mn)
     else if String.eqb norm_type "mean" then
       Ok (arr_mean im_true)
     else Raise (ValueError msg_norm_type)) ;;
  err <- mse im_true im_test ;;
  Ok (true_divide (sqrt err) denom).

(** [dtype_range[d]] *)
Definition dtype_range_getitem (d : Dtype.t) : result (num * num) :=
  match dtype_range d with
  | Some r => Ok r
  | None => Raise (KeyError d)
  end.

Definition psnr (im_true im_test : ndarray num)
  (dynamic_range : option num) : result num :=
  _ <- _assert_compatible im_true im_test ;;
  dynamic_range <-
    match dynamic_range with
    | None =>
        ' (dmin, dmax) <- dtype_range_getitem (dtype im_true) ;;
        true_min <- arr_min im_true ;;
        true_max <- arr_max im_true ;;
        if greater true_max dmax || less true_min dmin then
          Raise (ValueError msg_range)
        else if greater_equal true_min (of_Z 0) then
          Ok dmax
        else
          Ok (subtract dmax dmin)
    | Some d => Ok d
    end ;;
  let '(im_true, im_test) := _as_floats im_true im_test in
  err <- mse im_true im_test ;;
  Ok (multiply (of_Z 10)
        (log10 (true_divide (power dynamic_range 2) err))).

End Metrics.

(** ** What the design says, in its own words *)

(** "Identical element type and identical shape". *)
Definition same_type_and_shape {num} (X Y : ndarray num) : Prop :=
  dtype X = dtype Y /\ shape X = shape Y.

(** The three recognized normalization modes. *)
Definition norm_modes : list string := ["euclidean"; "min-max"; "mean"].

Section Design.

Context {num : Type} {np : Numpy num}.

(** The elements of [X] in double precision: those of a float64 array as
    they are, those of any other array converted. *)
Definition float_data (X : ndarray num) : list num :=
  if Dtype.eqb (dtype X) Dtype.float64 then data X
  else map (to_float64 (dtype X)) (data X).

(** [X[i]] in double precision, at the flat position [i]. *)
Definition float_item (X : ndarray num) (i : nat) : num :=
  nth i (float_data X) (of_Z 0).

(** "The arithmetic mean, over every element position, of the squared
    difference (X[i] - Y[i])^2". *)
Definition mean_squared_difference (X Y : ndarray num) : num :=
  mean (map (fun i => square (subtract (float_item X i) (float_item Y i)))
            (seq 0 (size X))).

(** The array [_as_floats] makes of [X]. *)
Definition promoted (X : ndarray num) : ndarray num :=
  mk_ndarray Dtype.float64 (shape X) (float_data X).

(** The value [mse] computes from the promoted elements. *)
Definition squared_error (X Y : ndarray num) : num :=
  mean (zip_with (fun x y => square (subtract x y))
          (float_data X) (float_data Y)).

(** [max(R)] and [min(R)] of a list of elements, when there is one. *)
Definition max_of (l : list num) : option num :=
  match l with
  | [] => None
  | x :: r => Some (fold_left maximum r x)
  end.

Definition min_of (l : list num) : option num :=
  match l with
  | [] => None
  | x :: r => Some (fold_left minimum r x)
  end.

(** The denominator of NRMSE for a lower-case mode name, computed from
    the reference elements [r]. *)
Definition nrmse_denominator (mode : string) (r : list num) : option num :=
  if String.eqb mode "euclidean" then
    Some (sqrt (mean (map (fun x => multiply x x) r)))
  else if String.eqb mode "min-max" then
    match max_of r, min_of r with
    | Some mx, Some mn => Some (subtract mx mn)
    | _, _ => None
    end
  else if String.eqb mode "mean" then Some (mean r)
  else None.

(** "max(R) > dmax or min(R) < dmin". *)
Definition exceeds_range (R : ndarray num) (dmin dmax : num) : Prop :=
  exists true_min true_max,
    min_of (data R) = Some true_min /\
    max_of (data R) = Some true_max /\
    (greater true_max dmax = true \/ less true_min dmin = true).

(** "dmax when min(R) >= 0 and dmax - dmin otherwise". *)
Definition inferred_range (true_min dmin dmax : num) : num :=
  if greater_equal true_min (of_Z 0) then dmax else subtract dmax dmin.

(** "10 * log10(dynamic_range^2 / err)". *)
Definition psnr_value (dynamic_range err : num) : num :=
  multiply (of_Z 10) (log10 (true_divide (power dynamic_range 2) err)).

End Design.

(** ** Real-number arithmetic as an implementation of the primitives *)

Module Ideal.

Definition Rgreater (a b : R) : bool := if Rgt_dec a b then true else false.
Definition Rless (a b : R) : bool := if Rlt_dec a b then true else false.
Definition Rgreater_equal (a b : R) : bool :=
  if Rge_dec a b then true else false.

Definition Rsum (l : list R) : R := fold_right Rplus 0%R l.

Definition Rmean (l : list R) : R := (Rsum l / INR (List.length l))%R.

Definition Rlog10 (x : R) : R := (ln x / ln 10)%R.

#[global] Instance numpy : Numpy R := {|
  of_Z := IZR;
  to_float64 := fun _ x => x;
  subtract := Rminus;
  multiply := Rmult;
  true_divide := Rdiv;
  power := powerRZ;
  square := Rsqr;
  sqrt := R_sqrt.sqrt;
  log10 := Rlog10;
  mean := Rmean;
  maximum := Rmax;
  minimum := Rmin;
  greater := Rgreater;
  less := Rless;
  greater_equal := Rgreater_equal
|}.

(** Modelled from the spec: the Dtype Range Table
    ([skimage/util/dtype.py], which is not among the sources): the
    representable range of each integer type, (0, 1) for booleans and
    the (-1, 1) convention for floating point; complex types have no
    entry. *)
Definition dtype_range (d : Dtype.t) : option (R * R) :=
  match d with
  | Dtype.bool_ => Some (0, 1)
  | Dtype.int8 => Some (-128, 127)
  | Dtype.uint8 => Some (0, 255)
  | Dtype.int16 => Some (-32768, 32767)
  | Dtype.uint16 => Some (0, 65535)
  | Dtype.int32 => Some (-2147483648, 2147483647)
  | Dtype.uint32 => Some (0, 4294967295)
  | Dtype.int64 => Some (-9223372036854775808, 9223372036854775807)
  | Dtype.uint64 => Some (0, 18446744073709551615)
  | Dtype.float16 | Dtype.float32 | Dtype.float64 => Some (-1, 1)
  | Dtype.complex64 | Dtype.complex128 => None
  end%R.

(** Sample images. *)
Definition checker : ndarray R :=
  mk_ndarray Dtype.uint8 [2; 2] [0; 2; 2; 0]%R.
Definition black : ndarray R :=
  mk_ndarray Dtype.uint8 [2; 2] [0; 0; 0; 0]%R.
Definition ones : ndarray R :=
  mk_ndarray Dtype.float64 [4] [1; 1; 1; 1]%R.
Definition bright : ndarray R :=
  mk_ndarray Dtype.float64 [2] [5; 3]%R.
Definition overflown : ndarray R :=
  mk_ndarray Dtype.uint8 [2] [300; 0]%R.
Definition row : ndarray R :=
  mk_ndarray Dtype.uint8 [4] [0; 2; 2; 0]%R.
Definition empty : ndarray R :=
  mk_ndarray Dtype.float64 [0] [].
Definition spectrum : ndarray R :=
  mk_ndarray Dtype.complex128 [2] [1; 0]%R.
Definition dim : ndarray R :=
  mk_ndarray Dtype.uint8 [2] [1; 1]%R.
Definition flat_black : ndarray R :=
  mk_ndarray Dtype.uint8 [4] [0; 0; 0; 0]%R.

End Ideal.

(** Decision of comparisons, maxima and minima of real literals. *)
Ltac lra_bool :=
  unfold Ideal.Rgreater, Ideal.Rless, Ideal.Rgreater_equal;
  repeat match goal with
    | |- context [Rgt_dec ?a ?b] => destruct (Rgt_dec a b)
    | |- context [Rlt_dec ?a ?b] => destruct (Rlt_dec a b)
    | |- context [Rge_dec ?a ?b] => destruct (Rge_dec a b)
    end;
  try reflexivity; try discriminate; try (exfalso; lra).

Ltac min_max :=
  repeat match goal with
    | |- context [Rmax ?a ?b] =>
        (rewrite (Rmax_left a b) by lra) || (rewrite (Rmax_right a b) by lra)
    | |- context [Rmin ?a ?b] =>
        (rewrite (Rmin_left a b) by lra) || (rewrite (Rmin_right a b) by lra)
    end.

(** * Properties *)

(** ** The compatibility check *)

Lemma dtype_eqb_eq (a b : Dtype.t) : Dtype.eqb a b = true <-> a = b.
Proof.
  unfold Dtype.eqb. destruct (Dtype.eq_dec a b); split; congruence.
Qed.

Lemma dtype_eqb_refl (a : Dtype.t) : Dtype.eqb a a = true.
Proof. now apply dtype_eqb_eq. Qed.

Lemma dtype_eqb_sym (a b : Dtype.t) : Dtype.eqb a b = Dtype.eqb b a.
Proof.
  unfold Dtype.eqb.
  destruct (Dtype.eq_dec a b), (Dtype.eq_dec b a); congruence.
Qed.

Lemma shape_eqb_eq (s s' : list nat) : shape_eqb s s' = true <-> s = s'.
Proof.
  revert s'. induction s as [|n r IH]; intros [|n' r']; simpl;
    try (split; [discriminate | congruence]); try tauto.
  rewrite andb_true_iff, Nat.eqb_eq, IH. split.
  - intros [-> ->]. reflexivity.
  - intros H. injection H as -> ->. auto.
Qed.

Lemma shape_eqb_refl (s : list nat) : shape_eqb s s = true.
Proof. now apply shape_eqb_eq. Qed.

Lemma shape_eqb_sym (s s' : list nat) : shape_eqb s s' = shape_eqb s' s.
Proof.
  destruct (shape_eqb s s') eqn:E.
  - apply shape_eqb_eq in E. subst. symmetry. apply shape_eqb_refl.
  - destruct (shape_eqb s' s) eqn:E'; [|reflexivity].
    apply shape_eqb_eq in E'. subst. rewrite shape_eqb_refl in E.
    discriminate.
Qed.

Section Checker.

Context {num : Type}.
Implicit Types X Y : ndarray num.

Lemma assert_compatible_ok X Y :
  _assert_compatible X Y = Ok tt <-> same_type_and_shape X Y.
Proof.
  unfold _assert_compatible, same_type_and_shape.
  destruct (Dtype.eqb (dtype X) (dtype Y)) eqn:Ed; simpl.
  - apply dtype_eqb_eq in Ed.
    destruct (shape_eqb (shape X) (shape Y)) eqn:Es; simpl.
    + apply shape_eqb_eq in Es. tauto.
    + split; [discriminate|]. intros [_ Hs].
      apply shape_eqb_eq in Hs. congruence.
  - split; [discriminate|]. intros [Hd _].
    apply dtype_eqb_eq in Hd. congruence.
Qed.

Lemma assert_compatible_raises X Y :
  ~ same_type_and_shape X Y ->
  exists e, _assert_compatible X Y = Raise e /\ IncompatibleInputsError e.
Proof.
  intros H. unfold _assert_compatible, IncompatibleInputsError.
  destruct (Dtype.eqb (dtype X) (dtype Y)) eqn:Ed; simpl.
  - destruct (shape_eqb (shape X) (shape Y)) eqn:Es; simpl.
    + exfalso. apply H. split.
      * now apply dtype_eqb_eq.
      * now apply shape_eqb_eq.
    + eauto.
  - eauto.
Qed.

Lemma assert_compatible_sym X Y :
  _assert_compatible X Y = _assert_compatible Y X.
Proof.
  unfold _assert_compatible.
  now rewrite dtype_eqb_sym, shape_eqb_sym.
Qed.

End Checker.

(** ** Promotion and the elementwise operations *)

Section Arrays.

Context {num : Type} {np : Numpy num}.
Implicit Types X Y : ndarray num.

Lemma as_floats_data X Y :
  _as_floats X Y =
    (mk_ndarray (dtype (fst (_as_floats X Y))) (shape X) (float_data X),
     mk_ndarray (dtype (snd (_as_floats X Y))) (shape Y) (float_data Y)).
Proof.
  unfold _as_floats, float_data, astype_float64.
  destruct X as [dx sx lx], Y as [dy sy ly]; simpl.
  destruct (Dtype.eqb dx Dtype.float64), (Dtype.eqb dy Dtype.float64);
    reflexivity.
Qed.

Lemma as_floats_dtype X Y :
  dtype (fst (_as_floats X Y)) = Dtype.float64 /\
  dtype (snd (_as_floats X Y)) = Dtype.float64.
Proof.
  unfold _as_floats. simpl.
  destruct (Dtype.eqb (dtype X) Dtype.float64) eqn:Ex,
           (Dtype.eqb (dtype Y) Dtype.float64) eqn:Ey; simpl;
    try apply dtype_eqb_eq in Ex; try apply dtype_eqb_eq in Ey; auto.
Qed.

(** Promotion leaves an array that is already float64 as it is. *)
Lemma as_floats_float64 X Y :
  dtype X = Dtype.float64 -> dtype Y = Dtype.float64 ->
  _as_floats X Y = (X, Y).
Proof.
  intros Hx Hy. unfold _as_floats. now rewrite Hx, Hy.
Qed.

Lemma as_floats_compatible X Y :
  same_type_and_shape X Y ->
  same_type_and_shape (fst (_as_floats X Y)) (snd (_as_floats X Y)).
Proof.
  intros [_ Hs]. split.
  - destruct (as_floats_dtype X Y) as [-> ->]. reflexivity.
  - rewrite (as_floats_data X Y). simpl. exact Hs.
Qed.

Lemma float_data_float64 X :
  dtype X = Dtype.float64 -> float_data X = data X.
Proof. intros H. unfold float_data. now rewrite H. Qed.

Lemma float_data_length X : List.length (float_data X) = List.length (data X).
Proof.
  unfold float_data. destruct (Dtype.eqb _ _); [reflexivity|].
  apply length_map.
Qed.

Lemma zip_with_positions (f : num -> num -> num) (d : num) :
  forall l l', List.length l = List.length l' ->
    zip_with f l l' =
      map (fun i => f (nth i l d) (nth i l' d)) (seq 0 (List.length l)).
Proof.
  induction l as [|x r IH]; intros [|y r'] H; simpl in *;
    try reflexivity; try discriminate.
  f_equal. rewrite <- seq_shift, map_map. apply IH. lia.
Qed.

Lemma zip_with_flip (f g : num -> num -> num) :
  (forall x y, f x y = g y x) ->
  forall l l', zip_with f l l' = zip_with g l' l.
Proof.
  intros H. induction l as [|x r IH]; intros [|y r']; simpl;
    try reflexivity.
  now rewrite H, IH.
Qed.

Lemma zip_with_map (f : num -> num -> num) (g : num -> num) :
  forall l l',
    map g (zip_with f l l') = zip_with (fun x y => g (f x y)) l l'.
Proof.
  induction l as [|x r IH]; intros [|y r']; simpl; try reflexivity.
  now rewrite IH.
Qed.

Lemma zip_with_diag (f : num -> num -> num) :
  forall l, zip_with f l l = map (fun x => f x x) l.
Proof.
  induction l as [|x r IH]; simpl; [reflexivity|]. now rewrite IH.
Qed.

Lemma mse_compatible X Y :
  same_type_and_shape X Y -> mse X Y = Ok (squared_error X Y).
Proof.
  intros H. unfold mse.
  apply assert_compatible_ok in H. rewrite H. cbn [bind].
  rewrite (as_floats_data X Y).
  unfold arr_mean, arr_square, arr_subtract, squared_error. simpl.
  now rewrite zip_with_map.
Qed.

Lemma mse_incompatible X Y e :
  _assert_compatible X Y = Raise e -> mse X Y = Raise e.
Proof. intros H. unfold mse. now rewrite H. Qed.

(** Calling [mse] on the promoted arrays gives what it gives on the
    arrays themselves. *)
Lemma mse_as_floats X Y :
  same_type_and_shape X Y ->
  mse (fst (_as_floats X Y)) (snd (_as_floats X Y)) = mse X Y.
Proof.
  intros H. rewrite (mse_compatible X Y H).
  rewrite mse_compatible by now apply as_floats_compatible.
  unfold squared_error. f_equal.
  destruct (as_floats_dtype X Y) as [Hx Hy].
  rewrite !float_data_float64 by assumption.
  rewrite (as_floats_data X Y). reflexivity.
Qed.

End Arrays.

(** ** mse *)

Section MseProperties.

Context {num : Type} {np : Numpy num}.
Implicit Types X Y : ndarray num.

(** C1.  For arrays of identical element type and identical shape, [mse]
    returns one scalar: the mean, over every element position [i], of
    the squared difference of [X[i]] and [Y[i]] (taken in double
    precision, as [_as_floats] promotes them). *)
Theorem mse_mean_squared_difference X Y :
  same_type_and_shape X Y -> well_formed X -> well_formed Y ->
  mse X Y = Ok (mean_squared_difference X Y).
Proof.
  intros H Wx Wy. rewrite (mse_compatible X Y H). f_equal.
  unfold squared_error, mean_squared_difference, float_item.
  assert (Hlen : List.length (float_data X) = List.length (float_data Y)).
  { rewrite !float_data_length. unfold well_formed, size in *.
    destruct H as [_ Hs]. rewrite Wx, Wy, Hs. reflexivity. }
  rewrite (zip_with_positions _ (of_Z 0) _ _ Hlen).
  rewrite float_data_length, Wx. reflexivity.
Qed.

(** C9.  [mse] is symmetric in its two arguments, in any arithmetic
    where the square of [x - y] is the square of [y - x]. *)
Theorem mse_symmetric X Y :
  (forall x y : num, square (subtract x y) = square (subtract y x)) ->
  same_type_and_shape X Y ->
  mse X Y = mse Y X.
Proof.
  intros Hsq H.
  assert (H' : same_type_and_shape Y X).
  { destruct H. split; congruence. }
  rewrite (mse_compatible X Y H), (mse_compatible Y X H').
  unfold squared_error. do 2 f_equal.
  apply zip_with_flip. intros x y. apply Hsq.
Qed.

End MseProperties.

(** ** nrmse *)

Lemma norm_modes_cases (s : string) :
  In s norm_modes <-> s = "euclidean" \/ s = "min-max" \/ s = "mean".
Proof. unfold norm_modes. simpl. intuition congruence. Qed.

Section NrmseProperties.

Context {num : Type} {np : Numpy num}.
Implicit Types R T : ndarray num.

Lemma max_of_arr_max R mx :
  max_of (data R) = Some mx -> arr_max R = Ok mx.
Proof.
  unfold max_of, arr_max. destruct (data R); [discriminate|].
  now intros [= ->].
Qed.

Lemma min_of_arr_min R mn :
  min_of (data R) = Some mn -> arr_min R = Ok mn.
Proof.
  unfold min_of, arr_min. destruct (data R); [discriminate|].
  now intros [= ->].
Qed.

Lemma arr_max_max_of R mx :
  arr_max R = Ok mx -> max_of (data R) = Some mx.
Proof.
  unfold max_of, arr_max. destruct (data R); [discriminate|].
  now intros [= ->].
Qed.

Lemma arr_min_min_of R mn :
  arr_min R = Ok mn -> min_of (data R) = Some mn.
Proof.
  unfold min_of, arr_min. destruct (data R); [discriminate|].
  now intros [= ->].
Qed.

Lemma as_floats_promoted R T :
  _as_floats R T = (promoted R, promoted T).
Proof.
  rewrite (as_floats_data R T).
  destruct (as_floats_dtype R T) as [-> ->]. reflexivity.
Qed.

(** [nrmse] after the check: the denominator of the mode, then the
    quotient. *)
Lemma nrmse_compatible R T mode :
  same_type_and_shape R T ->
  nrmse R T mode =
    (denom <-
       (if String.eqb (lower mode) "euclidean" then
          Ok (sqrt (mean (map (fun x => multiply x x) (float_data R))))
        else if String.eqb (lower mode) "min-max" then
          mx <- arr_max (promoted R) ;;
          mn <- arr_min (promoted R) ;;
          Ok (subtract mx mn)
        else if String.eqb (lower mode) "mean" then
          Ok (mean (float_data R))
        else Raise (ValueError msg_norm_type)) ;;
     Ok (true_divide (sqrt (squared_error R T)) denom)).
Proof.
  intros H. unfold nrmse.
  pose proof (mse_as_floats R T H) as Hm.
  rewrite (mse_compatible R T H) in Hm.
  apply assert_compatible_ok in H. rewrite H. cbn [bind].
  rewrite as_floats_promoted in *. cbn [fst snd] in Hm. rewrite Hm.
  unfold arr_mean, arr_multiply. cbn [data promoted].
  rewrite zip_with_diag. reflexivity.
Qed.

Lemma nrmse_incompatible R T mode e :
  _assert_compatible R T = Raise e -> nrmse R T mode = Raise e.
Proof. intros H. unfold nrmse. now rewrite H. Qed.

(** With a mode whose denominator is defined, [nrmse] returns the root
    of the MSE over that denominator. *)
Lemma nrmse_defined R T mode d :
  same_type_and_shape R T ->
  nrmse_denominator (lower mode) (float_data R) = Some d ->
  nrmse R T mode = Ok (true_divide (sqrt (squared_error R T)) d).
Proof.
  intros H Hd. rewrite (nrmse_compatible R T mode H).
  unfold nrmse_denominator in Hd.
  destruct (String.eqb (lower mode) "euclidean").
  { injection Hd as <-. reflexivity. }
  destruct (String.eqb (lower mode) "min-max").
  { destruct (max_of (float_data R)) as [mx|] eqn:Emx; [|discriminate].
    destruct (min_of (float_data R)) as [mn|] eqn:Emn; [|discriminate].
    injection Hd as <-.
    rewrite (max_of_arr_max (promoted R) mx Emx).
    rewrite (min_of_arr_min (promoted R) mn Emn). reflexivity. }
  destruct (String.eqb (lower mode) "mean"); [|discriminate].
  injection Hd as <-. reflexivity.
Qed.

(** The denominator of a recognized mode is defined, unless the mode is
    min-max and the reference array has no element. *)
Lemma nrmse_denominator_defined R mode :
  In (lower mode) norm_modes ->
  (lower mode = "min-max" -> data R <> []) ->
  exists d, nrmse_denominator (lower mode) (float_data R) = Some d.
Proof.
  intros Hin Hne. apply norm_modes_cases in Hin.
  unfold nrmse_denominator.
  destruct Hin as [E | [E | E]]; rewrite E in *; cbn; eauto.
  specialize (Hne eq_refl).
  assert (Hf : float_data R <> []).
  { intros Hf. apply Hne. apply length_zero_iff_nil.
    rewrite <- float_data_length, Hf. reflexivity. }
  unfold max_of, min_of. destruct (float_data R); [congruence|]. eauto.
Qed.

Lemma nrmse_unsupported R T mode :
  same_type_and_shape R T -> ~ In (lower mode) norm_modes ->
  nrmse R T mode = Raise (ValueError msg_norm_type).
Proof.
  intros H Hn. rewrite (nrmse_compatible R T mode H).
  rewrite norm_modes_cases in Hn.
  destruct (String.eqb_spec (lower mode) "euclidean"); [tauto|].
  destruct (String.eqb_spec (lower mode) "min-max"); [tauto|].
  destruct (String.eqb_spec (lower mode) "mean"); [tauto|].
  reflexivity.
Qed.

Lemma nrmse_recognized R T mode e :
  same_type_and_shape R T -> In (lower mode) norm_modes ->
  nrmse R T mode = Raise e -> ~ UnsupportedNormModeError e.
Proof.
  intros H Hin Hr. rewrite (nrmse_compatible R T mode H) in Hr.
  apply norm_modes_cases in Hin. unfold UnsupportedNormModeError.
  destruct Hin as [E | [E | E]]; rewrite E in Hr; cbn in Hr;
    try discriminate.
  unfold arr_max, arr_min in Hr. cbn [data promoted] in Hr.
  destruct (float_data R); cbn in Hr; [|discriminate].
  injection Hr as <-. intros Habs. vm_compute in Habs. discriminate.
Qed.

End NrmseProperties.

(** ** psnr *)

Section PsnrProperties.

Context {num : Type} {np : Numpy num}.
Variable dtype_range : Dtype.t -> option (num * num).
Implicit Types R T : ndarray num.

Lemma mse_promoted R T :
  same_type_and_shape R T ->
  mse (promoted R) (promoted T) = Ok (squared_error R T).
Proof.
  intros H. pose proof (mse_as_floats R T H) as Hm.
  rewrite as_floats_promoted in Hm. cbn [fst snd] in Hm.
  now rewrite Hm, mse_compatible.
Qed.

(** [psnr] once the dynamic range [d] is known. *)
Lemma psnr_tail R T d :
  same_type_and_shape R T ->
  (let '(im_true, im_test) := _as_floats R T in
   err <- mse im_true im_test ;;
   Ok (multiply (of_Z 10) (log10 (true_divide (power d 2) err)))) =
  Ok (psnr_value d (squared_error R T)).
Proof.
  intros H. rewrite as_floats_promoted, (mse_promoted R T H). reflexivity.
Qed.

Lemma psnr_incompatible R T dro e :
  _assert_compatible R T = Raise e -> psnr dtype_range R T dro = Raise e.
Proof. intros H. unfold psnr. now rewrite H. Qed.

Lemma psnr_supplied R T d :
  same_type_and_shape R T ->
  psnr dtype_range R T (Some d) = Ok (psnr_value d (squared_error R T)).
Proof.
  intros H. unfold psnr.
  rewrite (proj2 (assert_compatible_ok R T) H). cbn [bind].
  now apply psnr_tail.
Qed.

Lemma psnr_unknown_dtype R T :
  same_type_and_shape R T -> dtype_range (dtype R) = None ->
  psnr dtype_range R T None = Raise (KeyError (dtype R)).
Proof.
  intros H Hn. unfold psnr, dtype_range_getitem.
  rewrite (proj2 (assert_compatible_ok R T) H), Hn. reflexivity.
Qed.

Lemma psnr_zero_size R T dmin dmax :
  same_type_and_shape R T -> dtype_range (dtype R) = Some (dmin, dmax) ->
  data R = [] ->
  psnr dtype_range R T None = Raise (ValueError (msg_zero_size "minimum")).
Proof.
  intros H Ht He. unfold psnr, dtype_range_getitem, arr_min.
  rewrite (proj2 (assert_compatible_ok R T) H), Ht, He. reflexivity.
Qed.

Lemma psnr_out_of_range R T dmin dmax true_min true_max :
  same_type_and_shape R T -> dtype_range (dtype R) = Some (dmin, dmax) ->
  min_of (data R) = Some true_min -> max_of (data R) = Some true_max ->
  greater true_max dmax || less true_min dmin = true ->
  psnr dtype_range R T None = Raise (ValueError msg_range).
Proof.
  intros H Ht Hmin Hmax Hc. unfold psnr, dtype_range_getitem.
  rewrite (proj2 (assert_compatible_ok R T) H), Ht. cbn [bind].
  rewrite (min_of_arr_min R _ Hmin), (max_of_arr_max R _ Hmax). cbn [bind].
  rewrite Hc. reflexivity.
Qed.

Lemma psnr_in_range R T dmin dmax true_min true_max :
  same_type_and_shape R T -> dtype_range (dtype R) = Some (dmin, dmax) ->
  min_of (data R) = Some true_min -> max_of (data R) = Some true_max ->
  greater true_max dmax || less true_min dmin = false ->
  psnr dtype_range R T None =
    Ok (psnr_value (inferred_range true_min dmin dmax) (squared_error R T)).
Proof.
  intros H Ht Hmin Hmax Hc. unfold psnr, dtype_range_getitem.
  rewrite (proj2 (assert_compatible_ok R T) H), Ht. cbn [bind].
  rewrite (min_of_arr_min R _ Hmin), (max_of_arr_max R _ Hmax). cbn [bind].
  rewrite Hc. unfold inferred_range.
  destruct (greater_equal true_min (of_Z 0)); cbn [bind];
    now apply psnr_tail.
Qed.

Lemma min_max_nonempty R :
  data R <> [] ->
  exists true_min true_max,
    min_of (data R) = Some true_min /\ max_of (data R) = Some true_max.
Proof.
  intros H. unfold min_of, max_of. destruct (data R); [congruence|]. eauto.
Qed.

Lemma min_of_nonempty (l : list num) m : min_of l = Some m -> l <> [].
Proof. destruct l; [discriminate|]. intros _ ?. discriminate. Qed.

Lemma msg_range_directs :
  contains "Please manually specify the dynamic_range" msg_range = true.
Proof. vm_compute. reflexivity. Qed.

Lemma raise_zero_size_not_range (A : Type) op :
  @Raise A (ValueError (msg_zero_size op)) <> Raise (ValueError msg_range).
Proof. intros H. vm_compute in H. discriminate. Qed.

End PsnrProperties.

(** ** The claims about nrmse and psnr *)

Section Claims.

Context {num : Type} {np : Numpy num}.
Variable dtype_range : Dtype.t -> option (num * num).
Implicit Types X Y R T : ndarray num.

(** C2 (amended).  For a compatible pair and a recognized mode, [nrmse]
    returns the square root of [mse R T] divided by the denominator of the
    mode, computed from the promoted reference: the root of the mean of
    the squares for euclidean, maximum minus minimum for min-max, the mean
    for mean; for min-max the reference array must have an element. *)
Theorem nrmse_root_over_denominator R T mode :
  same_type_and_shape R T ->
  In (lower mode) norm_modes ->
  (lower mode = "min-max" -> data R <> []) ->
  exists err denom,
    mse R T = Ok err /\
    nrmse_denominator (lower mode) (float_data R) = Some denom /\
    nrmse R T mode = Ok (true_divide (sqrt err) denom).
Proof.
  intros H Hin Hne.
  destruct (nrmse_denominator_defined R mode Hin Hne) as [d Hd].
  exists (squared_error R T), d. split; [|split].
  - now apply mse_compatible.
  - exact Hd.
  - now apply nrmse_defined.
Qed.

(** C5.  For a compatible pair, [nrmse] fails with the unsupported-mode
    error exactly when the lower-cased mode is none of the three names;
    modes that agree after lower-casing give the same outcome, so
    "EUCLIDEAN" behaves as "euclidean". *)
Theorem nrmse_unsupported_mode R T mode :
  same_type_and_shape R T ->
  ((exists e, nrmse R T mode = Raise e /\ UnsupportedNormModeError e) <->
   ~ In (lower mode) norm_modes) /\
  (forall mode', lower mode' = lower mode ->
                 nrmse R T mode' = nrmse R T mode) /\
  nrmse R T "EUCLIDEAN" = nrmse R T "euclidean".
Proof.
  intros H. split; [|split].
  - split.
    + intros (e & Hr & He) Hin.
      exact (nrmse_recognized R T mode e H Hin Hr He).
    + intros Hn. exists (ValueError msg_norm_type). split.
      * now apply nrmse_unsupported.
      * reflexivity.
  - intros mode' E. rewrite !(nrmse_compatible R T _ H), E. reflexivity.
  - rewrite !(nrmse_compatible R T _ H). reflexivity.
Qed.

(** C3 (amended).  For a compatible pair whose reference has an element
    and stays within the table entry (dmin, dmax) of its element type,
    [psnr] without a dynamic range takes dmax when min(R) >= 0 and
    dmax - dmin otherwise, and returns
    10 * log10(dynamic_range^2 / mse(R, T)). *)
Theorem psnr_inferred_dynamic_range R T dmin dmax :
  same_type_and_shape R T ->
  dtype_range (dtype R) = Some (dmin, dmax) ->
  data R <> [] ->
  ~ exceeds_range R dmin dmax ->
  exists true_min err,
    min_of (data R) = Some true_min /\
    mse R T = Ok err /\
    psnr dtype_range R T None =
      Ok (psnr_value (inferred_range true_min dmin dmax) err).
Proof.
  intros H Ht Hne Hin.
  destruct (min_max_nonempty R Hne) as (tmin & tmax & Hmin & Hmax).
  exists tmin, (squared_error R T). split; [exact Hmin|]. split.
  - now apply mse_compatible.
  - apply (psnr_in_range dtype_range R T dmin dmax tmin tmax H Ht Hmin Hmax).
    destruct (greater tmax dmax) eqn:Eg.
    + exfalso. apply Hin. exists tmin, tmax. auto.
    + destruct (less tmin dmin) eqn:El; [|reflexivity].
      exfalso. apply Hin. exists tmin, tmax. auto.
Qed.

(** C6.  For a compatible pair without a supplied dynamic range and with
    a table entry (dmin, dmax), [psnr] fails with the out-of-range error
    exactly when max(R) > dmax or min(R) < dmin; the message of that
    error asks for the dynamic range to be specified manually. *)
Theorem psnr_out_of_range_iff R T dmin dmax :
  same_type_and_shape R T ->
  dtype_range (dtype R) = Some (dmin, dmax) ->
  ((exists e, psnr dtype_range R T None = Raise e /\ OutOfRangeError e) <->
   exceeds_range R dmin dmax) /\
  (forall e, OutOfRangeError e ->
     exists msg, e = ValueError msg /\
       contains "Please manually specify the dynamic_range" msg = true).
Proof.
  intros H Ht. split.
  - split.
    + intros (e & Hr & He). unfold OutOfRangeError in He. subst e.
      destruct (data R) as [|x r] eqn:Ed.
      { rewrite (psnr_zero_size dtype_range R T dmin dmax H Ht Ed) in Hr.
        destruct (raise_zero_size_not_range _ _ Hr). }
      assert (Hne : data R <> []) by (rewrite Ed; discriminate).
      destruct (min_max_nonempty R Hne) as (tmin & tmax & Hmin & Hmax).
      exists tmin, tmax. split; [exact Hmin|]. split; [exact Hmax|].
      destruct (greater tmax dmax || less tmin dmin) eqn:Ec.
      * apply orb_true_iff in Ec. exact Ec.
      * rewrite (psnr_in_range dtype_range R T dmin dmax tmin tmax
                   H Ht Hmin Hmax Ec) in Hr.
        discriminate.
    + intros (tmin & tmax & Hmin & Hmax & Hc).
      exists (ValueError msg_range). split; [|reflexivity].
      apply (psnr_out_of_range dtype_range R T dmin dmax tmin tmax
               H Ht Hmin Hmax).
      apply orb_true_iff. exact Hc.
  - intros e He. exists msg_range. split; [exact He|].
    apply msg_range_directs.
Qed.

(** C7.  For a compatible pair without a supplied dynamic range, [psnr]
    fails with the unknown-dtype error when the element type of the
    reference has no entry in the table. *)
Theorem psnr_unknown_dtype_error R T :
  same_type_and_shape R T ->
  dtype_range (dtype R) = None ->
  exists e, psnr dtype_range R T None = Raise e /\ UnknownDtypeError e.
Proof.
  intros H Hn. exists (KeyError (dtype R)). split.
  - now apply psnr_unknown_dtype.
  - exists (dtype R). reflexivity.
Qed.

End Claims.

(** ** Entry checks and divisors *)

Section Entry.

Context {num : Type} {np : Numpy num}.
Variable dtype_range : Dtype.t -> option (num * num).
Implicit Types X Y R T : ndarray num.

Lemma fold_left_constant (f : num -> num -> num) (c : num) (n : nat) :
  f c c = c -> fold_left f (repeat c n) c = c.
Proof.
  intros H. induction n as [|n IH]; simpl; [reflexivity|].
  now rewrite H.
Qed.

Lemma not_compatible X Y :
  dtype X <> dtype Y \/ shape X <> shape Y -> ~ same_type_and_shape X Y.
Proof. intros [H | H] [Hd Hs]; contradiction. Qed.

Lemma assert_compatible_ext X Y X' Y' :
  dtype X' = dtype X -> shape X' = shape X ->
  dtype Y' = dtype Y -> shape Y' = shape Y ->
  _assert_compatible X' Y' = _assert_compatible X Y.
Proof.
  intros Hdx Hsx Hdy Hsy. unfold _assert_compatible.
  now rewrite Hdx, Hsx, Hdy, Hsy.
Qed.

(** C4.  When the element types or the shapes of the two arrays differ,
    [mse], [nrmse] and [psnr] all fail with the incompatible-inputs error
    of [_assert_compatible].  The error is fixed by the two dtypes and
    shapes before anything is computed: it is the same for every pair of
    arrays with these dtypes and shapes, whatever their elements, the
    arithmetic, the mode, the table and the dynamic range are. *)
Theorem incompatible_inputs_rejected X Y :
  dtype X <> dtype Y \/ shape X <> shape Y ->
  exists e,
    IncompatibleInputsError e /\
    _assert_compatible X Y = Raise e /\
    forall X' Y' mode dynamic_range,
      dtype X' = dtype X -> shape X' = shape X ->
      dtype Y' = dtype Y -> shape Y' = shape Y ->
      mse X' Y' = Raise e /\
      nrmse X' Y' mode = Raise e /\
      psnr dtype_range X' Y' dynamic_range = Raise e.
Proof.
  intros H. apply not_compatible in H.
  destruct (assert_compatible_raises X Y H) as (e & Hr & He).
  exists e. split; [exact He|]. split; [exact Hr|].
  intros X' Y' mode dynamic_range Hdx Hsx Hdy Hsy.
  rewrite <- (assert_compatible_ext X Y X' Y' Hdx Hsx Hdy Hsy) in Hr.
  repeat split.
  - now apply mse_incompatible.
  - now apply nrmse_incompatible.
  - now apply psnr_incompatible.
Qed.

(** C8.  A zero divisor raises nothing.  For a compatible pair, [nrmse]
    under min-max returns the quotient by zero when maximum minus minimum
    of the reference is zero (as for a constant reference), and so it does
    under mean when the mean is zero; [psnr] returns its value with the
    quotient by zero when the MSE is zero, with a supplied dynamic range
    and with an inferred one. *)
Theorem zero_divisor_not_guarded R T :
  same_type_and_shape R T ->
  exists err,
    mse R T = Ok err /\
    (forall mx mn,
        max_of (float_data R) = Some mx ->
        min_of (float_data R) = Some mn ->
        subtract mx mn = of_Z 0 ->
        nrmse R T "min-max" = Ok (true_divide (sqrt err) (of_Z 0))) /\
    (forall c n,
        float_data R = repeat c (S n) ->
        maximum c c = c -> minimum c c = c -> subtract c c = of_Z 0 ->
        nrmse R T "min-max" = Ok (true_divide (sqrt err) (of_Z 0))) /\
    (mean (float_data R) = of_Z 0 ->
     nrmse R T "mean" = Ok (true_divide (sqrt err) (of_Z 0))) /\
    (err = of_Z 0 ->
     forall d,
       psnr dtype_range R T (Some d) =
         Ok (multiply (of_Z 10)
               (log10 (true_divide (power d 2) (of_Z 0))))) /\
    (err = of_Z 0 ->
     forall dmin dmax,
       dtype_range (dtype R) = Some (dmin, dmax) ->
       data R <> [] ->
       ~ exceeds_range R dmin dmax ->
       exists d,
         psnr dtype_range R T None =
           Ok (multiply (of_Z 10)
                 (log10 (true_divide (power d 2) (of_Z 0))))).
Proof.
  intros H. exists (squared_error R T).
  assert (Hmm : forall mx mn,
             max_of (float_data R) = Some mx ->
             min_of (float_data R) = Some mn ->
             subtract mx mn = of_Z 0 ->
             nrmse R T "min-max" =
               Ok (true_divide (sqrt (squared_error R T)) (of_Z 0))).
  { intros mx mn Hmx Hmn Hz. rewrite <- Hz.
    apply nrmse_defined; [exact H|].
    unfold nrmse_denominator. cbn. now rewrite Hmx, Hmn. }
  split; [now apply mse_compatible|]. split; [exact Hmm|].
  split; [|split; [|split]].
  - intros c n Hc Hmax Hmin Hz.
    apply (Hmm c c); [| |exact Hz]; rewrite Hc; cbn; f_equal;
      now apply fold_left_constant.
  - intros Hz. rewrite <- Hz. apply nrmse_defined; [exact H|reflexivity].
  - intros Hz d. rewrite (psnr_supplied dtype_range R T d H), Hz.
    reflexivity.
  - intros Hz dmin dmax Ht Hne Hin.
    destruct (min_max_nonempty R Hne) as (tmin & tmax & Hmin & Hmax).
    exists (inferred_range tmin dmin dmax).
    rewrite (psnr_in_range dtype_range R T dmin dmax tmin tmax
               H Ht Hmin Hmax).
    + rewrite Hz. reflexivity.
    + destruct (greater tmax dmax) eqn:Eg.
      * exfalso. apply Hin. exists tmin, tmax. auto.
      * destruct (less tmin dmin) eqn:El; [|reflexivity].
        exfalso. apply Hin. exists tmin, tmax. auto.
Qed.

(** C10.  With a dynamic range supplied, [psnr] on a compatible pair
    returns 10 * log10(dynamic_range^2 / mse): it raises nothing, so
    neither the unknown-dtype nor the out-of-range error, and its outcome
    is the same under every table. *)
Theorem psnr_supplied_dynamic_range R T d :
  same_type_and_shape R T ->
  (exists err,
      mse R T = Ok err /\
      psnr dtype_range R T (Some d) = Ok (psnr_value d err)) /\
  (forall e,
      psnr dtype_range R T (Some d) = Raise e ->
      ~ UnknownDtypeError e /\ ~ OutOfRangeError e) /\
  (forall table : Dtype.t -> option (num * num),
      psnr table R T (Some d) = psnr dtype_range R T (Some d)).
Proof.
  intros H. split; [|split].
  - exists (squared_error R T). split.
    + now apply mse_compatible.
    + now apply psnr_supplied.
  - intros e He. rewrite (psnr_supplied dtype_range R T d H) in He.
    discriminate.
  - intros table. now rewrite !psnr_supplied.
Qed.

End Entry.

(** ** The metrics in real arithmetic *)

Lemma checker_black_compatible :
  same_type_and_shape Ideal.checker Ideal.black.
Proof. split; reflexivity. Qed.

Lemma checker_min : min_of (data Ideal.checker) = Some 0%R.
Proof. cbn. min_max. reflexivity. Qed.

Lemma checker_max : max_of (data Ideal.checker) = Some 2%R.
Proof. cbn. min_max. reflexivity. Qed.

Lemma checker_squared_error :
  squared_error Ideal.checker Ideal.black = 2%R.
Proof.
  unfold squared_error. cbn. unfold Ideal.Rmean, Rsqr. cbn. field.
Qed.

Lemma checker_within_range : ~ exceeds_range Ideal.checker 0%R 255%R.
Proof.
  intros (tmin & tmax & Hmin & Hmax & Hc).
  rewrite checker_min in Hmin. rewrite checker_max in Hmax.
  injection Hmin as <-. injection Hmax as <-.
  cbn in Hc. destruct Hc as [Hc | Hc]; revert Hc; lra_bool.
Qed.

(** The scenario of the design: the MSE of the checker against black is 2,
    and its PSNR, with the range 255 inferred, is 10 * log10(255^2 / 2). *)
Example mse_checker_black : mse Ideal.checker Ideal.black = Ok 2%R.
Proof.
  rewrite (mse_compatible _ _ checker_black_compatible).
  now rewrite checker_squared_error.
Qed.

Example psnr_checker_black :
  psnr Ideal.dtype_range Ideal.checker Ideal.black None =
    Ok (10 * Ideal.Rlog10 (powerRZ 255 2 / 2))%R.
Proof.
  rewrite (psnr_in_range Ideal.dtype_range _ _ 0%R 255%R 0%R 2%R
             checker_black_compatible eq_refl checker_min checker_max).
  - rewrite checker_squared_error. unfold psnr_value, inferred_range.
    cbn. replace (Ideal.Rgreater_equal 0 0) with true by lra_bool.
    reflexivity.
  - cbn. lra_bool.
Qed.

(** Identical images of ones: the MSE is 0 and the NRMSE under mean is the
    quotient of 0 by 1. *)
Example nrmse_ones_mean :
  nrmse Ideal.ones Ideal.ones "mean" = Ok 0%R.
Proof.
  rewrite (nrmse_defined _ _ _ 1%R).
  - f_equal. unfold squared_error. cbn. unfold Ideal.Rmean, Rsqr. cbn.
    replace ((1 - 1) * (1 - 1) + ((1 - 1) * (1 - 1) +
              ((1 - 1) * (1 - 1) + ((1 - 1) * (1 - 1) + 0))))%R
      with 0%R by ring.
    unfold Rdiv. rewrite Rmult_0_l, sqrt_0. ring.
  - split; reflexivity.
  - vm_compute lower. cbn. f_equal. unfold Ideal.Rmean. cbn. field.
Qed.

(** Values of 300 in an array flagged as 8-bit are out of range. *)
Example psnr_overflown :
  psnr Ideal.dtype_range Ideal.overflown Ideal.overflown None =
    Raise (ValueError msg_range).
Proof.
  apply (psnr_out_of_range Ideal.dtype_range _ _ 0%R 255%R 0%R 300%R).
  - split; reflexivity.
  - reflexivity.
  - cbn. min_max. reflexivity.
  - cbn. min_max. reflexivity.
  - cbn. lra_bool.
Qed.

(** ** The theorems at sample images *)

Lemma mse_mean_squared_difference_checker :
  same_type_and_shape Ideal.checker Ideal.black /\
  mse Ideal.checker Ideal.black =
    Ok (mean_squared_difference Ideal.checker Ideal.black).
Proof.
  split; [split; reflexivity|].
  apply mse_mean_squared_difference;
    [split; reflexivity | reflexivity | reflexivity].
Defined.

Lemma mse_symmetric_checker :
  mse Ideal.checker Ideal.black = mse Ideal.black Ideal.checker.
Proof.
  apply mse_symmetric.
  - intros x y. cbn. unfold Rsqr. ring.
  - split; reflexivity.
Defined.

Lemma nrmse_root_over_denominator_checker :
  exists err denom,
    mse Ideal.checker Ideal.black = Ok err /\
    nrmse_denominator "min-max" (float_data Ideal.checker) = Some denom /\
    nrmse Ideal.checker Ideal.black "min-max" =
      Ok (true_divide (sqrt err) denom).
Proof.
  apply (nrmse_root_over_denominator Ideal.checker Ideal.black "min-max").
  - split; reflexivity.
  - right. left. reflexivity.
  - intros _. discriminate.
Defined.

(** C2, as stated, fails on an array without elements: its maximum does
    not exist and [nrmse] raises under min-max. *)
Lemma nrmse_min_max_zero_size :
  same_type_and_shape Ideal.empty Ideal.empty /\
  In (lower "min-max") norm_modes /\
  nrmse Ideal.empty Ideal.empty "min-max" =
    Raise (ValueError (msg_zero_size "maximum")).
Proof.
  split; [split; reflexivity|]. split; [right; left; reflexivity|].
  reflexivity.
Qed.

Lemma nrmse_unsupported_mode_bogus :
  ((exists e, nrmse Ideal.checker Ideal.black "bogus" = Raise e /\
              UnsupportedNormModeError e) <->
   ~ In (lower "bogus") norm_modes) /\
  (forall mode', lower mode' = lower "bogus" ->
     nrmse Ideal.checker Ideal.black mode' =
       nrmse Ideal.checker Ideal.black "bogus") /\
  nrmse Ideal.checker Ideal.black "EUCLIDEAN" =
    nrmse Ideal.checker Ideal.black "euclidean".
Proof.
  apply (nrmse_unsupported_mode Ideal.checker Ideal.black "bogus").
  split; reflexivity.
Defined.

Lemma psnr_inferred_dynamic_range_checker :
  exists true_min err,
    min_of (data Ideal.checker) = Some true_min /\
    mse Ideal.checker Ideal.black = Ok err /\
    psnr Ideal.dtype_range Ideal.checker Ideal.black None =
      Ok (psnr_value (inferred_range true_min 0%R 255%R) err).
Proof.
  apply (psnr_inferred_dynamic_range Ideal.dtype_range
           Ideal.checker Ideal.black 0%R 255%R).
  - split; reflexivity.
  - reflexivity.
  - discriminate.
  - intros (tmin & tmax & Hmin & Hmax & Hc).
    cbn in Hmin, Hmax. revert Hmin Hmax. min_max.
    intros [= <-] [= <-]. cbn in Hc.
    destruct Hc as [Hc | Hc]; revert Hc; lra_bool.
Defined.

(** C3, as stated, fails on an array without elements: no value of it
    leaves the range, yet its minimum does not exist and [psnr] raises. *)
Lemma psnr_zero_size_reference :
  same_type_and_shape Ideal.empty Ideal.empty /\
  Ideal.dtype_range (dtype Ideal.empty) = Some (-1, 1)%R /\
  ~ exceeds_range Ideal.empty (-1)%R 1%R /\
  psnr Ideal.dtype_range Ideal.empty Ideal.empty None =
    Raise (ValueError (msg_zero_size "minimum")).
Proof.
  split; [split; reflexivity|]. split; [reflexivity|]. split.
  - intros (tmin & tmax & Hmin & _). discriminate Hmin.
  - reflexivity.
Qed.

Lemma incompatible_inputs_rejected_checker_row :
  exists e,
    IncompatibleInputsError e /\
    _assert_compatible Ideal.checker Ideal.row = Raise e /\
    forall X' Y' mode dynamic_range,
      dtype X' = dtype Ideal.checker -> shape X' = shape Ideal.checker ->
      dtype Y' = dtype Ideal.row -> shape Y' = shape Ideal.row ->
      mse X' Y' = Raise e /\
      nrmse X' Y' mode = Raise e /\
      psnr Ideal.dtype_range X' Y' dynamic_range = Raise e.
Proof.
  apply incompatible_inputs_rejected. right. discriminate.
Defined.

Lemma psnr_out_of_range_iff_overflown :
  ((exists e,
       psnr Ideal.dtype_range Ideal.overflown Ideal.overflown None = Raise e
       /\ OutOfRangeError e) <->
   exceeds_range Ideal.overflown 0%R 255%R) /\
  (forall e, OutOfRangeError e ->
     exists msg, e = ValueError msg /\
       contains "Please manually specify the dynamic_range" msg = true).
Proof.
  apply psnr_out_of_range_iff; [split; reflexivity | reflexivity].
Defined.

Lemma psnr_unknown_dtype_error_spectrum :
  exists e,
    psnr Ideal.dtype_range Ideal.spectrum Ideal.spectrum None = Raise e /\
    UnknownDtypeError e.
Proof.
  apply psnr_unknown_dtype_error; [split; reflexivity | reflexivity].
Defined.

Lemma zero_divisor_not_guarded_ones :
  exists err,
    mse Ideal.ones Ideal.ones = Ok err /\
    (forall mx mn,
        max_of (float_data Ideal.ones) = Some mx ->
        min_of (float_data Ideal.ones) = Some mn ->
        subtract mx mn = of_Z 0 ->
        nrmse Ideal.ones Ideal.ones "min-max" =
          Ok (true_divide (sqrt err) (of_Z 0))) /\
    (forall c n,
        float_data Ideal.ones = repeat c (S n) ->
        maximum c c = c -> minimum c c = c -> subtract c c = of_Z 0 ->
        nrmse Ideal.ones Ideal.ones "min-max" =
          Ok (true_divide (sqrt err) (of_Z 0))) /\
    (mean (float_data Ideal.ones) = of_Z 0 ->
     nrmse Ideal.ones Ideal.ones "mean" =
       Ok (true_divide (sqrt err) (of_Z 0))) /\
    (err = of_Z 0 ->
     forall d,
       psnr Ideal.dtype_range Ideal.ones Ideal.ones (Some d) =
         Ok (multiply (of_Z 10)
               (log10 (true_divide (power d 2) (of_Z 0))))) /\
    (err = of_Z 0 ->
     forall dmin dmax,
       Ideal.dtype_range (dtype Ideal.ones) = Some (dmin, dmax) ->
       data Ideal.ones <> [] ->
       ~ exceeds_range Ideal.ones dmin dmax ->
       exists d,
         psnr Ideal.dtype_range Ideal.ones Ideal.ones None =
           Ok (multiply (of_Z 10)
                 (log10 (true_divide (power d 2) (of_Z 0))))).
Proof.
  apply zero_divisor_not_guarded. split; reflexivity.
Defined.

Lemma psnr_supplied_dynamic_range_bright :
  (exists err,
      mse Ideal.bright Ideal.bright = Ok err /\
      psnr Ideal.dtype_range Ideal.bright Ideal.bright (Some 255%R) =
        Ok (psnr_value 255%R err)) /\
  (forall e,
      psnr Ideal.dtype_range Ideal.bright Ideal.bright (Some 255%R) = Raise e ->
      ~ UnknownDtypeError e /\ ~ OutOfRangeError e) /\
  (forall table : Dtype.t -> option (R * R),
      psnr table Ideal.bright Ideal.bright (Some 255%R) =
        psnr Ideal.dtype_range Ideal.bright Ideal.bright (Some 255%R)).
Proof.
  apply psnr_supplied_dynamic_range. split; reflexivity.
Defined.

(** * Further properties of the module *)

Section Further.

Context {num : Type} {np : Numpy num}.
Variable dtype_range : Dtype.t -> option (num * num).
Implicit Types X Y R T : ndarray num.

Lemma compatible_dec X Y :
  {same_type_and_shape X Y} + {~ same_type_and_shape X Y}.
Proof.
  destruct (_assert_compatible X Y) as [[]|e] eqn:E.
  - left. now apply assert_compatible_ok.
  - right. intros H. apply assert_compatible_ok in H. congruence.
Qed.

Lemma compatible_refl X : same_type_and_shape X X.
Proof. split; reflexivity. Qed.

Lemma compatible_sym X Y :
  same_type_and_shape X Y -> same_type_and_shape Y X.
Proof. intros [Hd Hs]. split; congruence. Qed.

Lemma float_data_promoted X : float_data (promoted X) = float_data X.
Proof. reflexivity. Qed.

Lemma promoted_compatible X Y :
  same_type_and_shape X Y -> same_type_and_shape (promoted X) (promoted Y).
Proof. intros [_ Hs]. split; [reflexivity | exact Hs]. Qed.

Lemma promoted_float64 X : dtype X = Dtype.float64 -> promoted X = X.
Proof.
  intros H. unfold promoted. rewrite (float_data_float64 X H).
  destruct X as [d s l]. simpl in *. now subst d.
Qed.

(** X1.  [_as_floats] returns two float64 arrays with the shapes and the
    element counts of its arguments; an argument that is float64 already
    comes back as it is, so promoting twice is promoting once. *)
Theorem as_floats_promotes X Y :
  dtype (fst (_as_floats X Y)) = Dtype.float64 /\
  dtype (snd (_as_floats X Y)) = Dtype.float64 /\
  shape (fst (_as_floats X Y)) = shape X /\
  shape (snd (_as_floats X Y)) = shape Y /\
  List.length (data (fst (_as_floats X Y))) = List.length (data X) /\
  List.length (data (snd (_as_floats X Y))) = List.length (data Y) /\
  (dtype X = Dtype.float64 -> fst (_as_floats X Y) = X) /\
  (dtype Y = Dtype.float64 -> snd (_as_floats X Y) = Y) /\
  _as_floats (fst (_as_floats X Y)) (snd (_as_floats X Y)) = _as_floats X Y.
Proof.
  rewrite as_floats_promoted. cbn [fst snd promoted dtype shape data].
  rewrite !float_data_length.
  repeat split; intros H; now apply promoted_float64.
Qed.

(** X2.  The dtype is compared before the shape: when the dtypes differ
    the three metrics raise the dtype message, also when the shapes differ
    too; the dimensions message is raised when only the shapes differ. *)
Theorem dtype_mismatch_reported_first X Y mode dynamic_range :
  (dtype X <> dtype Y ->
   mse X Y = Raise (ValueError msg_dtype) /\
   nrmse X Y mode = Raise (ValueError msg_dtype) /\
   psnr dtype_range X Y dynamic_range = Raise (ValueError msg_dtype)) /\
  (dtype X = dtype Y -> shape X <> shape Y ->
   mse X Y = Raise (ValueError msg_dimensions) /\
   nrmse X Y mode = Raise (ValueError msg_dimensions) /\
   psnr dtype_range X Y dynamic_range = Raise (ValueError msg_dimensions)).
Proof.
  split.
  - intros Hd.
    assert (E : _assert_compatible X Y = Raise (ValueError msg_dtype)).
    { unfold _assert_compatible.
      destruct (Dtype.eqb (dtype X) (dtype Y)) eqn:Ed; [|reflexivity].
      apply dtype_eqb_eq in Ed. contradiction. }
    auto using mse_incompatible, nrmse_incompatible, psnr_incompatible.
  - intros Hd Hs.
    assert (E : _assert_compatible X Y = Raise (ValueError msg_dimensions)).
    { unfold _assert_compatible.
      rewrite (proj2 (dtype_eqb_eq _ _) Hd). cbn.
      destruct (shape_eqb (shape X) (shape Y)) eqn:Es; [|reflexivity].
      apply shape_eqb_eq in Es. contradiction. }
    auto using mse_incompatible, nrmse_incompatible, psnr_incompatible.
Qed.

Lemma squared_error_sym X Y :
  (forall x y : num, square (subtract x y) = square (subtract y x)) ->
  squared_error X Y = squared_error Y X.
Proof.
  intros Hsq. unfold squared_error. f_equal.
  apply zip_with_flip. intros x y. apply Hsq.
Qed.

(** X3.  In an arithmetic where the square of [x - y] is the square of
    [y - x], swapping the arguments of [mse] never changes its outcome:
    the same value for compatible arrays, the same error for the others. *)
Theorem mse_outcome_symmetric X Y :
  (forall x y : num, square (subtract x y) = square (subtract y x)) ->
  mse X Y = mse Y X.
Proof.
  intros Hsq. destruct (compatible_dec X Y) as [H | H].
  - rewrite (mse_compatible X Y H).
    rewrite (mse_compatible Y X (compatible_sym X Y H)).
    f_equal. now apply squared_error_sym.
  - destruct (assert_compatible_raises X Y H) as (e & Hr & _).
    rewrite (mse_incompatible X Y e Hr).
    rewrite assert_compatible_sym in Hr.
    now rewrite (mse_incompatible Y X e Hr).
Qed.

(** X4.  With a supplied dynamic range [psnr] does not tell the reference
    from the test image: in such an arithmetic, swapping the two images
    leaves its outcome unchanged. *)
Theorem psnr_supplied_symmetric X Y d :
  (forall x y : num, square (subtract x y) = square (subtract y x)) ->
  psnr dtype_range X Y (Some d) = psnr dtype_range Y X (Some d).
Proof.
  intros Hsq. destruct (compatible_dec X Y) as [H | H].
  - rewrite (psnr_supplied dtype_range X Y d H).
    rewrite (psnr_supplied dtype_range Y X d (compatible_sym X Y H)).
    now rewrite (squared_error_sym X Y Hsq).
  - destruct (assert_compatible_raises X Y H) as (e & Hr & _).
    rewrite (psnr_incompatible dtype_range X Y _ e Hr).
    rewrite assert_compatible_sym in Hr.
    now rewrite (psnr_incompatible dtype_range Y X _ e Hr).
Qed.

Lemma map_constant (f : num -> num) (z : num) (l : list num) :
  (forall x, In x l -> f x = z) -> map f l = repeat z (List.length l).
Proof.
  induction l as [|x r IH]; intros H; simpl; [reflexivity|].
  rewrite (H x) by (left; reflexivity).
  rewrite IH; [reflexivity|]. intros y Hy. apply H. now right.
Qed.

(** X5.  An image compared with itself has MSE zero, provided it has an
    element, the squared difference of each of its elements with itself
    is zero, and the mean of zeros is zero. *)
Theorem mse_identical X :
  data X <> [] ->
  (forall x, In x (float_data X) -> square (subtract x x) = of_Z 0) ->
  (forall n, mean (repeat (of_Z 0) (S n)) = of_Z 0) ->
  mse X X = Ok (of_Z 0).
Proof.
  intros Hne Hsq Hmean. rewrite (mse_compatible X X (compatible_refl X)).
  f_equal. unfold squared_error.
  rewrite zip_with_diag, (map_constant _ (of_Z 0) _ Hsq).
  rewrite float_data_length.
  destruct (data X) as [|x r]; [congruence|]. apply Hmean.
Qed.

End Further.

(** ** Which errors the metrics raise, and when *)

Section Outcomes.

Context {num : Type} {np : Numpy num}.
Variable dtype_range : Dtype.t -> option (num * num).
Implicit Types X Y R T : ndarray num.

Lemma nrmse_min_max_outcome R T mode :
  same_type_and_shape R T -> lower mode = "min-max" ->
  nrmse R T mode =
    match float_data R with
    | [] => Raise (ValueError (msg_zero_size "maximum"))
    | x :: r =>
        Ok (true_divide (sqrt (squared_error R T))
              (subtract (fold_left maximum r x) (fold_left minimum r x)))
    end.
Proof.
  intros H E. rewrite (nrmse_compatible R T mode H), E. cbn.
  unfold arr_max, arr_min. cbn [data promoted].
  destruct (float_data R); reflexivity.
Qed.

Lemma float_data_nil X : float_data X = [] <-> data X = [].
Proof.
  rewrite <- !length_zero_iff_nil, float_data_length. reflexivity.
Qed.

(** X6.  [nrmse] raises three kinds of error and no other: the
    incompatible-inputs error, for an incompatible pair; the
    unsupported-mode error, for a compatible pair and an unrecognized
    mode; numpy's zero-size error of [max], for a compatible pair under
    min-max whose reference has no element. *)
Theorem nrmse_errors R T mode e :
  nrmse R T mode = Raise e ->
  (IncompatibleInputsError e /\ ~ same_type_and_shape R T) \/
  (UnsupportedNormModeError e /\ same_type_and_shape R T /\
   ~ In (lower mode) norm_modes) \/
  (e = ValueError (msg_zero_size "maximum") /\ same_type_and_shape R T /\
   lower mode = "min-max" /\ data R = []).
Proof.
  intros Hr. destruct (compatible_dec R T) as [H | H].
  - right. destruct (in_dec string_dec (lower mode) norm_modes) as [Hin | Hn].
    + right. apply norm_modes_cases in Hin.
      destruct Hin as [E | [E | E]].
      * rewrite (nrmse_compatible R T mode H), E in Hr. discriminate.
      * rewrite (nrmse_min_max_outcome R T mode H E) in Hr.
        destruct (float_data R) eqn:Ef; [|discriminate].
        apply float_data_nil in Ef. injection Hr as <-. auto.
      * rewrite (nrmse_compatible R T mode H), E in Hr. discriminate.
    + left. rewrite (nrmse_unsupported R T mode H Hn) in Hr.
      injection Hr as <-. unfold UnsupportedNormModeError. auto.
  - left. destruct (assert_compatible_raises R T H) as (e' & Hr' & He').
    rewrite (nrmse_incompatible R T mode e' Hr') in Hr.
    injection Hr as <-. auto.
Qed.

Lemma exceeds_range_dec R dmin dmax true_min true_max :
  min_of (data R) = Some true_min -> max_of (data R) = Some true_max ->
  (greater true_max dmax || less true_min dmin = true <->
   exceeds_range R dmin dmax).
Proof.
  intros Hmin Hmax. rewrite orb_true_iff. split.
  - intros Hc. exists true_min, true_max. auto.
  - intros (tmin & tmax & Hmin' & Hmax' & Hc).
    rewrite Hmin in Hmin'. rewrite Hmax in Hmax'.
    injection Hmin' as ->. injection Hmax' as ->. exact Hc.
Qed.

(** X7.  Without a supplied dynamic range [psnr] raises four kinds of
    error and no other, tried in this order: the incompatible-inputs
    error; the [KeyError] of an element type without table entry; numpy's
    zero-size error of [min], for a reference without element; the
    out-of-range error. *)
Theorem psnr_errors R T e :
  psnr dtype_range R T None = Raise e ->
  (IncompatibleInputsError e /\ ~ same_type_and_shape R T) \/
  (e = KeyError (dtype R) /\ same_type_and_shape R T /\
   dtype_range (dtype R) = None) \/
  (e = ValueError (msg_zero_size "minimum") /\ same_type_and_shape R T /\
   dtype_range (dtype R) <> None /\ data R = []) \/
  (OutOfRangeError e /\ same_type_and_shape R T /\ data R <> [] /\
   exists dmin dmax,
     dtype_range (dtype R) = Some (dmin, dmax) /\
     exceeds_range R dmin dmax).
Proof.
  intros Hr. destruct (compatible_dec R T) as [H | H].
  - right. destruct (dtype_range (dtype R)) as [[dmin dmax]|] eqn:Et.
    + right. destruct (data R) as [|x r] eqn:Ed.
      * left.
        rewrite (psnr_zero_size dtype_range R T dmin dmax H Et Ed) in Hr.
        injection Hr as <-. split; [reflexivity|]. split; [exact H|].
        split; [discriminate | reflexivity].
      * right.
        assert (Hne : data R <> []) by (rewrite Ed; discriminate).
        destruct (min_max_nonempty R Hne) as (tmin & tmax & Hmin & Hmax).
        destruct (greater tmax dmax || less tmin dmin) eqn:Ec.
        -- rewrite (psnr_out_of_range dtype_range R T dmin dmax tmin tmax
                      H Et Hmin Hmax Ec) in Hr.
           injection Hr as <-. split; [reflexivity|]. split; [exact H|].
           split; [rewrite <- Ed; exact Hne|].
           exists dmin, dmax. split; [reflexivity|].
           now apply (exceeds_range_dec R dmin dmax tmin tmax Hmin Hmax).
        -- rewrite (psnr_in_range dtype_range R T dmin dmax tmin tmax
                      H Et Hmin Hmax Ec) in Hr.
           discriminate.
    + left. rewrite (psnr_unknown_dtype dtype_range R T H Et) in Hr.
      injection Hr as <-. auto.
  - left. destruct (assert_compatible_raises R T H) as (e' & Hr' & He').
    rewrite (psnr_incompatible dtype_range R T None e' Hr') in Hr.
    injection Hr as <-. auto.
Qed.

(** X8.  When [psnr] infers the dynamic range and returns, it returns
    what it returns when the caller supplies dmax, or dmax - dmin, of the
    table entry of the reference's element type. *)
Theorem psnr_inferred_as_supplied R T v :
  psnr dtype_range R T None = Ok v ->
  exists dmin dmax,
    dtype_range (dtype R) = Some (dmin, dmax) /\
    (psnr dtype_range R T (Some dmax) = Ok v \/
     psnr dtype_range R T (Some (subtract dmax dmin)) = Ok v).
Proof.
  intros Hv. destruct (compatible_dec R T) as [H | H].
  - destruct (dtype_range (dtype R)) as [[dmin dmax]|] eqn:Et.
    + exists dmin, dmax. split; [reflexivity|].
      destruct (data R) as [|x r] eqn:Ed.
      { rewrite (psnr_zero_size dtype_range R T dmin dmax H Et Ed) in Hv.
        discriminate. }
      assert (Hne : data R <> []) by (rewrite Ed; discriminate).
      destruct (min_max_nonempty R Hne) as (tmin & tmax & Hmin & Hmax).
      destruct (greater tmax dmax || less tmin dmin) eqn:Ec.
      * rewrite (psnr_out_of_range dtype_range R T dmin dmax tmin tmax
                   H Et Hmin Hmax Ec) in Hv.
        discriminate.
      * rewrite (psnr_in_range dtype_range R T dmin dmax tmin tmax
                   H Et Hmin Hmax Ec) in Hv.
        rewrite !(psnr_supplied dtype_range R T _ H). rewrite <- Hv.
        unfold inferred_range.
        destruct (greater_equal tmin (of_Z 0)); auto.
    + rewrite (psnr_unknown_dtype dtype_range R T H Et) in Hv.
      discriminate.
  - destruct (assert_compatible_raises R T H) as (e' & Hr' & _).
    rewrite (psnr_incompatible dtype_range R T None e' Hr') in Hv.
    discriminate.
Qed.

End Outcomes.

(** ** What the outcome depends on *)

Section Dependence.

Context {num : Type} {np : Numpy num}.
Variable dtype_range : Dtype.t -> option (num * num).
Implicit Types X Y R T : ndarray num.

(** X9.  Whether [psnr] fails while inferring the dynamic range is
    decided by the reference image: an error raised for one compatible
    test image is raised for every compatible test image. *)
Theorem psnr_failure_by_reference R T T' e :
  same_type_and_shape R T -> same_type_and_shape R T' ->
  psnr dtype_range R T None = Raise e ->
  psnr dtype_range R T' None = Raise e.
Proof.
  intros H H' Hr.
  destruct (dtype_range (dtype R)) as [[dmin dmax]|] eqn:Et.
  - destruct (data R) as [|x r] eqn:Ed.
    + rewrite (psnr_zero_size dtype_range R T dmin dmax H Et Ed) in Hr.
      now rewrite (psnr_zero_size dtype_range R T' dmin dmax H' Et Ed).
    + assert (Hne : data R <> []) by (rewrite Ed; discriminate).
      destruct (min_max_nonempty R Hne) as (tmin & tmax & Hmin & Hmax).
      destruct (greater tmax dmax || less tmin dmin) eqn:Ec.
      * rewrite (psnr_out_of_range dtype_range R T dmin dmax tmin tmax
                   H Et Hmin Hmax Ec) in Hr.
        now rewrite (psnr_out_of_range dtype_range R T' dmin dmax tmin tmax
                       H' Et Hmin Hmax Ec).
      * rewrite (psnr_in_range dtype_range R T dmin dmax tmin tmax
                   H Et Hmin Hmax Ec) in Hr.
        discriminate.
  - rewrite (psnr_unknown_dtype dtype_range R T H Et) in Hr.
    now rewrite (psnr_unknown_dtype dtype_range R T' H' Et).
Qed.

(** X10.  Likewise for [nrmse]: an error raised for one compatible test
    image is raised, under the same mode, for every compatible test
    image. *)
Theorem nrmse_failure_by_reference R T T' mode e :
  same_type_and_shape R T -> same_type_and_shape R T' ->
  nrmse R T mode = Raise e ->
  nrmse R T' mode = Raise e.
Proof.
  intros H H' Hr.
  rewrite (nrmse_compatible R T mode H) in Hr.
  rewrite (nrmse_compatible R T' mode H').
  destruct (String.eqb (lower mode) "euclidean"); [discriminate|].
  destruct (String.eqb (lower mode) "min-max").
  { destruct (arr_max (promoted R)); [|exact Hr].
    destruct (arr_min (promoted R)); [discriminate | exact Hr]. }
  destruct (String.eqb (lower mode) "mean"); [discriminate | exact Hr].
Qed.

Lemma float_data_ext X X' :
  dtype X' = dtype X -> data X' = data X -> float_data X' = float_data X.
Proof. intros Hd Hl. unfold float_data. now rewrite Hd, Hl. Qed.

(** X11.  [mse] works in any dimensionality: the shapes only have to
    agree, and two compatible images give the MSE of the same elements
    laid out under any other common shape. *)
Theorem mse_any_dimensionality X Y X' Y' :
  same_type_and_shape X Y -> same_type_and_shape X' Y' ->
  dtype X' = dtype X -> data X' = data X ->
  dtype Y' = dtype Y -> data Y' = data Y ->
  mse X' Y' = mse X Y.
Proof.
  intros H H' Hdx Hlx Hdy Hly.
  rewrite (mse_compatible X Y H), (mse_compatible X' Y' H').
  unfold squared_error.
  now rewrite (float_data_ext X X' Hdx Hlx), (float_data_ext Y Y' Hdy Hly).
Qed.

(** X12.  Promoting a compatible pair to float64 before the call changes
    the outcome of none of [mse], [nrmse] and [psnr] with a supplied
    dynamic range. *)
Theorem promotion_beforehand R T mode d :
  same_type_and_shape R T ->
  mse (fst (_as_floats R T)) (snd (_as_floats R T)) = mse R T /\
  nrmse (fst (_as_floats R T)) (snd (_as_floats R T)) mode =
    nrmse R T mode /\
  psnr dtype_range (fst (_as_floats R T)) (snd (_as_floats R T)) (Some d) =
    psnr dtype_range R T (Some d).
Proof.
  intros H. pose proof (promoted_compatible R T H) as Hp.
  rewrite as_floats_promoted. cbn [fst snd]. split; [|split].
  - rewrite (mse_compatible R T H), (mse_compatible _ _ Hp). reflexivity.
  - rewrite (nrmse_compatible R T mode H), (nrmse_compatible _ _ mode Hp).
    reflexivity.
  - rewrite (psnr_supplied dtype_range R T d H).
    rewrite (psnr_supplied dtype_range _ _ d Hp). reflexivity.
Qed.

End Dependence.

(** ** In real arithmetic *)






(** ** The further properties at sample images *)

Lemma Rmean_zeros (n : nat) : Ideal.Rmean (repeat 0%R (S n)) = 0%R.
Proof.
  unfold Ideal.Rmean.
  assert (E : Ideal.Rsum (repeat 0%R (S n)) = 0%R).
  { induction n as [|n IH]; cbn in *; lra. }
  rewrite E. unfold Rdiv. apply Rmult_0_l.
Qed.

Lemma bogus_not_a_mode : ~ In (lower "bogus") norm_modes.
Proof.
  intros H. apply norm_modes_cases in H.
  destruct H as [H | [H | H]]; vm_compute in H; discriminate.
Qed.

Lemma dtype_mismatch_reported_first_checker :
  mse Ideal.checker Ideal.ones = Raise (ValueError msg_dtype) /\
  mse Ideal.checker Ideal.row = Raise (ValueError msg_dimensions).
Proof.
  split.
  - apply (proj1 (dtype_mismatch_reported_first Ideal.dtype_range
                    Ideal.checker Ideal.ones "mean" None)).
    discriminate.
  - apply (proj2 (dtype_mismatch_reported_first Ideal.dtype_range
                    Ideal.checker Ideal.row "mean" None)).
    + reflexivity.
    + discriminate.
Defined.

Lemma mse_outcome_symmetric_checker_row :
  mse Ideal.checker Ideal.row = mse Ideal.row Ideal.checker.
Proof.
  apply mse_outcome_symmetric. intros x y. cbn. unfold Rsqr. ring.
Defined.

Lemma psnr_supplied_symmetric_checker :
  psnr Ideal.dtype_range Ideal.checker Ideal.black (Some 255%R) =
    psnr Ideal.dtype_range Ideal.black Ideal.checker (Some 255%R).
Proof.
  apply psnr_supplied_symmetric. intros x y. cbn. unfold Rsqr. ring.
Defined.

Lemma mse_identical_ones : mse Ideal.ones Ideal.ones = Ok 0%R.
Proof.
  refine (mse_identical (np := Ideal.numpy) Ideal.ones _ _ _).
  - discriminate.
  - intros x _. cbn. unfold Rminus. rewrite Rplus_opp_r. apply Rsqr_0.
  - exact Rmean_zeros.
Defined.

Lemma nrmse_errors_empty :
  (IncompatibleInputsError (ValueError (msg_zero_size "maximum")) /\
   ~ same_type_and_shape Ideal.empty Ideal.empty) \/
  (UnsupportedNormModeError (ValueError (msg_zero_size "maximum")) /\
   same_type_and_shape Ideal.empty Ideal.empty /\
   ~ In (lower "min-max") norm_modes) \/
  (ValueError (msg_zero_size "maximum") =
     ValueError (msg_zero_size "maximum") /\
   same_type_and_shape Ideal.empty Ideal.empty /\
   lower "min-max" = "min-max" /\ data Ideal.empty = []).
Proof.
  apply (nrmse_errors Ideal.empty Ideal.empty "min-max"). reflexivity.
Defined.

Lemma psnr_errors_overflown :
  (IncompatibleInputsError (ValueError msg_range) /\
   ~ same_type_and_shape Ideal.overflown Ideal.overflown) \/
  (ValueError msg_range = KeyError (dtype Ideal.overflown) /\
   same_type_and_shape Ideal.overflown Ideal.overflown /\
   Ideal.dtype_range (dtype Ideal.overflown) = None) \/
  (ValueError msg_range = ValueError (msg_zero_size "minimum") /\
   same_type_and_shape Ideal.overflown Ideal.overflown /\
   Ideal.dtype_range (dtype Ideal.overflown) <> None /\
   data Ideal.overflown = []) \/
  (OutOfRangeError (ValueError msg_range) /\
   same_type_and_shape Ideal.overflown Ideal.overflown /\
   data Ideal.overflown <> [] /\
   exists dmin dmax,
     Ideal.dtype_range (dtype Ideal.overflown) = Some (dmin, dmax) /\
     exceeds_range Ideal.overflown dmin dmax).
Proof.
  apply (psnr_errors Ideal.dtype_range Ideal.overflown Ideal.overflown).
  exact psnr_overflown.
Defined.

Lemma psnr_inferred_as_supplied_checker :
  exists dmin dmax,
    Ideal.dtype_range (dtype Ideal.checker) = Some (dmin, dmax) /\
    (psnr Ideal.dtype_range Ideal.checker Ideal.black (Some dmax) =
       Ok (10 * Ideal.Rlog10 (powerRZ 255 2 / 2))%R \/
     psnr Ideal.dtype_range Ideal.checker Ideal.black
       (Some (subtract dmax dmin)) =
       Ok (10 * Ideal.Rlog10 (powerRZ 255 2 / 2))%R).
Proof.
  apply psnr_inferred_as_supplied. exact psnr_checker_black.
Defined.

Lemma psnr_failure_by_reference_overflown :
  psnr Ideal.dtype_range Ideal.overflown Ideal.dim None =
    Raise (ValueError msg_range).
Proof.
  apply (psnr_failure_by_reference Ideal.dtype_range
           Ideal.overflown Ideal.overflown Ideal.dim).
  - split; reflexivity.
  - split; reflexivity.
  - exact psnr_overflown.
Defined.

Lemma nrmse_failure_by_reference_checker :
  nrmse Ideal.checker Ideal.checker "bogus" =
    Raise (ValueError msg_norm_type).
Proof.
  apply (nrmse_failure_by_reference Ideal.checker Ideal.black Ideal.checker).
  - split; reflexivity.
  - split; reflexivity.
  - apply nrmse_unsupported; [split; reflexivity | exact bogus_not_a_mode].
Defined.

Lemma mse_any_dimensionality_flat :
  mse Ideal.row Ideal.flat_black = mse Ideal.checker Ideal.black.
Proof.
  apply mse_any_dimensionality;
    try reflexivity; split; reflexivity.
Defined.

Lemma promotion_beforehand_checker :
  mse (fst (_as_floats Ideal.checker Ideal.black))
      (snd (_as_floats Ideal.checker Ideal.black)) =
    mse Ideal.checker Ideal.black /\
  nrmse (fst (_as_floats Ideal.checker Ideal.black))
        (snd (_as_floats Ideal.checker Ideal.black)) "mean" =
    nrmse Ideal.checker Ideal.black "mean" /\
  psnr Ideal.dtype_range (fst (_as_floats Ideal.checker Ideal.black))
       (snd (_as_floats Ideal.checker Ideal.black)) (Some 255%R) =
    psnr Ideal.dtype_range Ideal.checker Ideal.black (Some 255%R).
Proof.
  apply promotion_beforehand. split; reflexivity.
Defined.

